(** * MayaCode backend (server/main.py): the four HTTP handlers

    A shallow embedding of [server/main.py].  Python dictionaries are
    [gmap string pyval], exceptions are values of [exn], and each handler is
    a computation in the monad [M], which threads a trace of the calls that
    leave the process (the remote completion service, the file read) and
    either returns a value or raises. *)

From Stdlib Require Import ZArith NArith Lia List String Ascii Floats.
From Stdlib.Strings Require Import Byte.
From stdpp Require Import base option list strings gmap pretty.

Set Warnings "-register-all".
Open Scope Z_scope.

(** ** Python values *)

Inductive pyval :=
| PNone
| PBool (b : bool)
| PInt (z : Z)
| PFloat (f : float)
| PStr (s : string)
| PList (l : list pyval)
| PDict (d : gmap string pyval).

(** An [Optional[str]] as a value: the text, or [None]. *)
Definition optional_str (x : option string) : pyval :=
  match x with
  | Some s => PStr s
  | None => PNone
  end.

(** One entry of a dict display [{k: v, **d, ...}]. *)
Inductive display_item :=
| KV (k : string) (v : pyval)
| Unpack (d : gmap string pyval).

(** A dict display is evaluated left to right; a later entry replaces an
    earlier one under the same key. *)
Definition dict_display (items : list display_item) : gmap string pyval :=
  foldl (fun m it =>
           match it with
           | KV k v => <[k := v]> m
           | Unpack d => d ∪ m
           end) ∅ items.

(** ** Exceptions *)

(** The exception classes the handlers can meet: Python's own, and those of
    the openai package (version 1, the one that exports [OpenAI]).  Every
    class here derives from [Exception]; what Python raises outside that
    class ([KeyboardInterrupt], [SystemExit]) ends the process and is no
    reply of a handler. *)
Inductive exc_class :=
| Exception
| LookupError | IndexError | KeyError
| ValueError | TypeError | AttributeError
| OSError | FileNotFoundError | IsADirectoryError | PermissionError
| OpenAIError | APIError
| APIConnectionError | APITimeoutError
| APIStatusError | BadRequestError | AuthenticationError
| PermissionDeniedError | NotFoundError | RateLimitError | InternalServerError.

#[global] Instance exc_class_eq_dec : EqDecision exc_class.
Proof. solve_decision. Defined.

(** The direct base class. *)
Definition base_class (c : exc_class) : option exc_class :=
  match c with
  | Exception => None
  | LookupError | ValueError | TypeError | AttributeError | OSError
  | OpenAIError => Some Exception
  | IndexError | KeyError => Some LookupError
  | FileNotFoundError | IsADirectoryError | PermissionError => Some OSError
  | APIError => Some OpenAIError
  | APIConnectionError | APIStatusError => Some APIError
  | APITimeoutError => Some APIConnectionError
  | BadRequestError | AuthenticationError | PermissionDeniedError
  | NotFoundError | RateLimitError | InternalServerError => Some APIStatusError
  end.

Fixpoint issubclass_upto (fuel : nat) (c d : exc_class) : bool :=
  if bool_decide (c = d) then true
  else match fuel with
       | O => false
       | S fuel' =>
           match base_class c with
           | Some b => issubclass_upto fuel' b d
           | None => false
           end
       end.

(** No chain of base classes is longer than five. *)
Definition issubclass (c d : exc_class) : bool := issubclass_upto 5 c d.

(** An exception instance: FastAPI's [HTTPException(status_code, detail)],
    or an instance of one of the classes above with the text [str] gives. *)
Inductive exn :=
| HTTPException (status_code : Z) (detail : string)
| Raised (cls : exc_class) (text : string).

(** [HTTPException] derives from [Exception] and from none of the other
    classes. *)
Definition isinstance (e : exn) (c : exc_class) : bool :=
  match e with
  | HTTPException _ _ => bool_decide (c = Exception)
  | Raised k _ => issubclass k c
  end.

(** ** Request and reply types *)

Record ChatMessage := { role : string; content : string }.

Record ChatRequest := {
  messages : list ChatMessage;
  model : string;
  max_tokens : Z;
  temperature : float
}.

(** The pydantic defaults of [ChatRequest]. *)
Definition ChatRequest_defaults (msgs : list ChatMessage) : ChatRequest :=
  {| messages := msgs;
     model := "gpt-3.5-turbo";
     max_tokens := 150;
     temperature := 0x1.6666666666666p-1%float |}.

(** The client object [OpenAI(api_key=...)]. *)
Record OpenAI := { api_key : string }.

(** The keyword arguments of [chat.completions.create]. *)
Record create_args := {
  arg_model : string;
  arg_messages : list (gmap string pyval);
  arg_max_tokens : Z;
  arg_temperature : float
}.

(** The part of the remote reply the handler reads:
    [response.choices[0].message.content].  The openai package declares the
    content [Optional[str]]: a reply may carry no text. *)
Module completion.

Record Message := { content : option string }.
Record Choice := { message : Message }.
Record ChatCompletion := { choices : list Choice }.

End completion.

(** ** Computations *)

Inductive result (A : Type) :=
| Return (a : A)
| Raise (e : exn).
Arguments Return {A} a.
Arguments Raise {A} e.

(** What leaves the process during a request. *)
Inductive event :=
| EvCreate (client : OpenAI) (args : create_args)
| EvRead (path : string).

Definition M (A : Type) : Type := list event -> result A * list event.

Definition ret {A} (a : A) : M A := fun t => (Return a, t).
Definition raise {A} (e : exn) : M A := fun t => (Raise e, t).
Definition emit (ev : event) : M unit := fun t => (Return tt, t ++ [ev]).
Definition lift {A} (r : result A) : M A := fun t => (r, t).

Definition bind {A B} (m : M A) (k : A -> M B) : M B :=
  fun t =>
    match m t with
    | (Return a, t') => k a t'
    | (Raise e, t') => (Raise e, t')
    end.

#[global] Instance M_ret : MRet M := @ret.
#[global] Instance M_bind : MBind M := fun A B k m => bind m k.

(** [try: body except C1 as e: h1 e except C2 as e: h2 e ...]: the first
    clause whose class the exception is an instance of handles it; what a
    clause raises is not offered to the clauses after it. *)
Definition try_except {A} (body : M A)
    (clauses : list (exc_class * (exn -> M A))) : M A :=
  fun t =>
    match body t with
    | (Return a, t') => (Return a, t')
    | (Raise e, t') =>
        match find (fun cl => isinstance e cl.1) clauses with
        | Some cl => cl.2 e t'
        | None => (Raise e, t')
        end
    end.

(** ** [datetime] and [isoformat] *)

Definition is_leap (y : Z) : bool :=
  (y mod 4 =? 0) && (negb (y mod 100 =? 0) || (y mod 400 =? 0)).

Definition days_in_month (y m : Z) : Z :=
  if m =? 2 then (if is_leap y then 29 else 28)
  else if (m =? 4) || (m =? 6) || (m =? 9) || (m =? 11) then 30
  else 31.

(** The ranges Python's [datetime] constructor enforces. *)
Definition datetime_fields_ok (y mo d h mi s us : Z) : bool :=
  (1 <=? y) && (y <=? 9999) && (1 <=? mo) && (mo <=? 12) &&
  (1 <=? d) && (d <=? days_in_month y mo) &&
  (0 <=? h) && (h <? 24) && (0 <=? mi) && (mi <? 60) &&
  (0 <=? s) && (s <? 60) && (0 <=? us) && (us <? 1000000).

(** A naive [datetime], as [datetime.now()] returns it. *)
Record datetime := {
  year : Z; month : Z; day : Z;
  hour : Z; minute : Z; second : Z; microsecond : Z;
  datetime_ok :
    datetime_fields_ok year month day hour minute second microsecond = true
}.

Definition digit_char (d : Z) : ascii := ascii_of_N (Z.to_N (48 + d)).

(** The [width] low decimal digits of [n], most significant first. *)
Fixpoint digits (width : nat) (n : Z) : string :=
  match width with
  | O => EmptyString
  | S w => String (digit_char (n / 10 ^ Z.of_nat w)) (digits w (n mod 10 ^ Z.of_nat w))
  end.

(** [%0<width>d] of a number that is not negative. *)
Definition zero_pad (width : nat) (n : Z) : string :=
  if n <? 10 ^ Z.of_nat width then digits width n else pretty n.

(** [datetime.isoformat()] with its default separator and [timespec='auto']:
    the fraction is printed only when the microsecond is not zero, and a
    naive value carries no offset. *)
Definition isoformat (d : datetime) : string :=
  zero_pad 4 (year d) +:+ "-" +:+ zero_pad 2 (month d) +:+ "-" +:+
  zero_pad 2 (day d) +:+ "T" +:+
  zero_pad 2 (hour d) +:+ ":" +:+ zero_pad 2 (minute d) +:+ ":" +:+
  zero_pad 2 (second d) +:+
  (if microsecond d =? 0 then "" else "." +:+ zero_pad 6 (microsecond d)).

(** *** Reading an ISO-8601 date-time back *)

Definition digit_val (c : ascii) : option Z :=
  let n := Z.of_N (N_of_ascii c) in
  if (48 <=? n) && (n <=? 57) then Some (n - 48) else None.

Fixpoint read_number (width : nat) (acc : Z) (s : string) : option (Z * string) :=
  match width with
  | O => Some (acc, s)
  | S w =>
      match s with
      | String c s' =>
          match digit_val c with
          | Some d => read_number w (10 * acc + d) s'
          | None => None
          end
      | EmptyString => None
      end
  end.

Definition expect (c : ascii) (s : string) : option string :=
  match s with
  | String c' s' => if bool_decide (c = c') then Some s' else None
  | EmptyString => None
  end.

(** The fields of a date-time as [isoformat] prints it. *)
Record iso_fields := {
  f_year : Z; f_month : Z; f_day : Z;
  f_hour : Z; f_minute : Z; f_second : Z; f_microsecond : Z
}.

(** The extended format [YYYY-MM-DDThh:mm:ss], with an optional fraction of
    six digits. *)
Definition parse_iso8601 (s : string) : option iso_fields :=
  '(y, s) ← read_number 4 0 s;
  s ← expect "-" s;
  '(mo, s) ← read_number 2 0 s;
  s ← expect "-" s;
  '(d, s) ← read_number 2 0 s;
  s ← expect "T" s;
  '(h, s) ← read_number 2 0 s;
  s ← expect ":" s;
  '(mi, s) ← read_number 2 0 s;
  s ← expect ":" s;
  '(sec, s) ← read_number 2 0 s;
  match s with
  | EmptyString => Some (Build_iso_fields y mo d h mi sec 0)
  | _ =>
      s ← expect "." s;
      '(us, s) ← read_number 6 0 s;
      match s with
      | EmptyString => Some (Build_iso_fields y mo d h mi sec us)
      | _ => None
      end
  end.

(** Well-formed: it parses, and the fields name a real instant. *)
Definition is_iso8601 (s : string) : bool :=
  match parse_iso8601 s with
  | Some f =>
      datetime_fields_ok (f_year f) (f_month f) (f_day f)
        (f_hour f) (f_minute f) (f_second f) (f_microsecond f)
  | None => false
  end.

Definition fields_of (d : datetime) : iso_fields :=
  Build_iso_fields (year d) (month d) (day d) (hour d) (minute d) (second d)
    (microsecond d).

(** ** [base64] *)

Definition b64_alphabet : list byte :=
  list_byte_of_string
    "ABCDEFGHIJKLMNOPQRSTUVWXYZabcdefghijklmnopqrstuvwxyz0123456789+/".

Definition b64_pad : byte := "="%byte.

(** The character of a six-bit value. *)
Definition b64_char (n : N) : byte := nth (N.to_nat n) b64_alphabet b64_pad.

Fixpoint index_of (c : byte) (l : list byte) (i : N) : option N :=
  match l with
  | [] => None
  | x :: l' => if Byte.eqb x c then Some i else index_of c l' (N.succ i)
  end.

(** The six-bit value of a character of the alphabet. *)
Definition b64_index (c : byte) : option N := index_of c b64_alphabet 0%N.

(** [base64.b64encode]: three bytes become four characters; a last group of
    one or two bytes is filled with zero bits and padded with [=]. *)
Fixpoint b64encode (bs : list byte) : list byte :=
  match bs with
  | [] => []
  | [a] =>
      let n := (Byte.to_N a * 16)%N in
      [b64_char (n / 64); b64_char (n mod 64); b64_pad; b64_pad]
  | [a; b] =>
      let n := ((Byte.to_N a * 256 + Byte.to_N b) * 4)%N in
      [b64_char (n / 4096); b64_char (n / 64 mod 64); b64_char (n mod 64);
       b64_pad]
  | a :: b :: c :: rest =>
      let n := (Byte.to_N a * 65536 + Byte.to_N b * 256 + Byte.to_N c)%N in
      b64_char (n / 262144) :: b64_char (n / 4096 mod 64)
        :: b64_char (n / 64 mod 64) :: b64_char (n mod 64) :: b64encode rest
  end.

(** Decoding of padded base64 text (RFC 4648, section 4). *)
Fixpoint b64decode (cs : list byte) : option (list byte) :=
  match cs with
  | [] => Some []
  | c1 :: c2 :: c3 :: c4 :: rest =>
      if Byte.eqb c4 b64_pad then
        match rest with
        | [] =>
            if Byte.eqb c3 b64_pad then
              i1 ← b64_index c1; i2 ← b64_index c2;
              x ← Byte.of_N ((i1 * 64 + i2) / 16)%N;
              Some [x]
            else
              i1 ← b64_index c1; i2 ← b64_index c2; i3 ← b64_index c3;
              let n := (i1 * 4096 + i2 * 64 + i3)%N in
              x ← Byte.of_N (n / 1024)%N;
              y ← Byte.of_N (n / 4 mod 256)%N;
              Some [x; y]
        | _ :: _ => None
        end
      else
        i1 ← b64_index c1; i2 ← b64_index c2;
        i3 ← b64_index c3; i4 ← b64_index c4;
        let n := (i1 * 262144 + i2 * 4096 + i3 * 64 + i4)%N in
        x ← Byte.of_N (n / 65536)%N;
        y ← Byte.of_N (n / 256 mod 256)%N;
        z ← Byte.of_N (n mod 256)%N;
        tail ← b64decode rest;
        Some (x :: y :: z :: tail)
  | _ => None
  end.

(** [bytes.decode('utf-8')] on seven-bit input, where it gives one character
    per byte; [b64encode] emits nothing else ([b64encode_seven_bit]). *)
Definition decode_utf8 (bs : list byte) : string := string_of_list_byte bs.

(** [str.encode()] on such a string, the way back. *)
Definition encode_utf8 (s : string) : list byte := list_byte_of_string s.

(** ** The process and what surrounds it *)

(** What a request finds outside the handler. *)
Record World := {
  (** [os.environ], once [load_dotenv()] has run *)
  environ : gmap string string;
  (** [os.path.exists] *)
  path_exists : string -> bool;
  (** [open(path, 'rb')] followed by [read()] *)
  read_file : string -> result (list byte);
  (** [datetime.now()] *)
  now : datetime;
  (** the completion service behind [client.chat.completions.create] *)
  remote_create : OpenAI -> create_args -> result completion.ChatCompletion
}.

(** [os.getenv(key)] and [os.getenv(key, default)]. *)
Definition getenv (w : World) (key : string) : option string := environ w !! key.
Definition getenv_or (w : World) (key fallback : string) : string :=
  default fallback (environ w !! key).

(** [bool(x)] of an optional string: [None] and the empty string are false. *)
Definition bool_of_str (x : option string) : bool :=
  match x with
  | Some s => negb (String.eqb s "")
  | None => false
  end.

(** [bool(x)] of an optional client: an [OpenAI] object is true. *)
Definition bool_of_client (x : option OpenAI) : bool :=
  match x with
  | Some _ => true
  | None => false
  end.

(** The module-level names bound when [main.py] is imported. *)
Record Globals := {
  openai_api_key : option string;
  openai_client : option OpenAI
}.

(** Lines 20-21:
    [openai_client = OpenAI(api_key=openai_api_key) if openai_api_key else None]. *)
Definition startup (w : World) : Globals :=
  let key := getenv w "OPENAI_API_KEY" in
  {| openai_api_key := key;
     openai_client :=
       match key with
       | Some k => if bool_of_str key then Some {| api_key := k |} else None
       | None => None
       end |}.

Definition PDF_FILE_PATH : string := "document.pdf".

(** *** Calls that leave the process *)

Definition open_read (w : World) (path : string) : M (list byte) :=
  emit (EvRead path);; lift (read_file w path).

Definition completions_create (w : World) (client : OpenAI)
    (args : create_args) : M completion.ChatCompletion :=
  emit (EvCreate client args);; lift (remote_create w client args).

(** [l[i]] on a Python list. *)
Definition getitem {A} (l : list A) (i : nat) : M A :=
  match l !! i with
  | Some x => mret x
  | None => raise (Raised IndexError "list index out of range")
  end.

(** *** What FastAPI sends *)

Record Response := { status : Z; body : pyval }.

(** A returned dict is sent with status 200; an [HTTPException] with its
    status and [{"detail": detail}]; anything else a handler lets through
    ends as the server's plain 500. *)
Definition respond (r : result (gmap string pyval)) : Response :=
  match r with
  | Return d => {| status := 200; body := PDict d |}
  | Raise (HTTPException sc d) =>
      {| status := sc; body := PDict {["detail" := PStr d]} |}
  | Raise (Raised _ _) => {| status := 500; body := PStr "Internal Server Error" |}
  end.

(** The [create] calls recorded in a trace. *)
Definition create_calls (t : list event) : list (OpenAI * create_args) :=
  omap (fun ev => match ev with
                  | EvCreate c a => Some (c, a)
                  | EvRead _ => None
                  end) t.

(** ** Sample surroundings *)

(** [HTTPException.__str__] of current Starlette releases. *)
Definition starlette_str (sc : Z) (d : string) : string := pretty sc +:+ ": " +:+ d.

Definition sample_now : datetime :=
  {| year := 2024; month := 2; day := 29;
     hour := 9; minute := 5; second := 7; microsecond := 120;
     datetime_ok := eq_refl |}.

Definition sample_pdf : list byte := list_byte_of_string "%PDF-1.4 sample".

Definition sample_reply (text : string) : completion.ChatCompletion :=
  {| completion.choices :=
       [ {| completion.message := {| completion.content := Some text |} |} ] |}.

(** A process with a key, a readable file and a service that answers. *)
Definition sample_world : World :=
  {| environ := {[ "OPENAI_API_KEY" := "sk-test" ]};
     path_exists := fun p => String.eqb p "document.pdf";
     read_file := fun p =>
       if String.eqb p "document.pdf" then Return sample_pdf
       else Raise (Raised FileNotFoundError "[Errno 2] No such file or directory");
     now := sample_now;
     remote_create := fun _ _ => Return (sample_reply "Hi there") |}.

(** The same process with another completion service. *)
Definition with_remote (w : World)
    (f : OpenAI -> create_args -> result completion.ChatCompletion) : World :=
  {| environ := environ w; path_exists := path_exists w;
     read_file := read_file w; now := now w; remote_create := f |}.

(** No key in the environment and no file on disk. *)
Definition bare_world : World :=
  {| environ := ∅;
     path_exists := fun _ => false;
     read_file := fun _ =>
       Raise (Raised FileNotFoundError "[Errno 2] No such file or directory");
     now := sample_now;
     remote_create := fun _ _ => Return (sample_reply "Hi there") |}.

Definition sample_request : ChatRequest :=
  ChatRequest_defaults [ {| role := "user"; content := "Hello" |} ].


(** A base profile with a [documents] field of its own. *)
Definition colliding_profile : gmap string pyval :=
  {[ "name" := PStr "Maya"; "documents" := PStr "passport.pdf" ]}.

(** A service that refuses the key. *)
Definition rejecting_world : World :=
  with_remote sample_world
    (fun _ _ => Raise (Raised AuthenticationError "Incorrect API key provided")).

(** A service that answers with no choice at all. *)
Definition silent_world : World :=
  with_remote sample_world (fun _ _ => Return {| completion.choices := [] |}).

(** A path that exists and cannot be read. *)
Definition locked_world : World :=
  {| environ := ∅;
     path_exists := fun _ => true;
     read_file := fun _ =>
       Raise (Raised PermissionError "[Errno 13] Permission denied: 'document.pdf'");
     now := sample_now;
     remote_create := fun _ _ => Return (sample_reply "Hi there") |}.

(** A service whose one choice carries no text. *)
Definition wordless_world : World :=
  with_remote sample_world
    (fun _ _ => Return {| completion.choices :=
       [ {| completion.message := {| completion.content := None |} |} ] |}).

(** A request whose only message has a role outside the three. *)
Definition wizard_request : ChatRequest :=
  ChatRequest_defaults [ {| role := "wizard"; content := "Hello" |} ].

(** ** The handlers *)

Section Gateway.

(** [str(e)] of an [HTTPException] is Starlette's, which [main.py] does not
    fix to a release: recent ones print the status and the detail, older
    ones the empty string. *)
Variable HTTPException_str : Z -> string -> string.

(** The user data module [data/user_data.py]. *)
Variable DEFAULT_USER_PROFILE : gmap string pyval.
Variable SUGGESTED_ACTIONS_DATA : list pyval.
Variable DOCUMENTS_DATA : list pyval.

Definition str (e : exn) : string :=
  match e with
  | HTTPException sc d => HTTPException_str sc d
  | Raised _ text => text
  end.

Definition health_check (g : Globals) (w : World) : M (gmap string pyval) :=
  mret (dict_display
    [ KV "success" (PBool true);
      KV "message" (PStr "MayaCode Backend API is running");
      KV "timestamp" (PStr (isoformat (now w)));
      KV "version" (PStr (getenv_or w "API_VERSION" "v1"));
      KV "pdf_exists" (PBool (path_exists w PDF_FILE_PATH));
      KV "openai_configured" (PBool (bool_of_str (openai_api_key g))) ]).

Definition welcome : M (gmap string pyval) :=
  mret (dict_display [ KV "message" (PStr "FastAPI Backend is running!") ]).

Definition get_user_data : M (gmap string pyval) :=
  try_except
    (let user_data := dict_display
       [ Unpack DEFAULT_USER_PROFILE;
         KV "suggestedActions" (PList SUGGESTED_ACTIONS_DATA);
         KV "documents" (PList DOCUMENTS_DATA) ] in
     mret (dict_display [ KV "success" (PBool true); KV "data" (PDict user_data) ]))
    [ (Exception, fun e =>
         raise (HTTPException 500 ("Error loading user data: " +:+ str e))) ].

Definition get_pdf_base64 (w : World) : M (gmap string pyval) :=
  try_except
    (if negb (path_exists w PDF_FILE_PATH) then
       raise (HTTPException 404 ("PDF file '" +:+ PDF_FILE_PATH +:+ "' not found"))
     else
       pdf_content ← open_read w PDF_FILE_PATH;
       let pdf_base64 := decode_utf8 (b64encode pdf_content) in
       mret (dict_display [ KV "success" (PBool true); KV "data" (PStr pdf_base64) ]))
    [ (Exception, fun e =>
         raise (HTTPException 500 ("Error processing PDF file: " +:+ str e))) ].

(** Line 119: [{"role": msg.role, "content": msg.content}]. *)
Definition message_dict (msg : ChatMessage) : gmap string pyval :=
  dict_display [ KV "role" (PStr (role msg)); KV "content" (PStr (content msg)) ].

(** Lines 121-126: the arguments of the remote call. *)
Definition request_args (chat_request : ChatRequest) : create_args :=
  {| arg_model := model chat_request;
     arg_messages := map message_dict (messages chat_request);
     arg_max_tokens := max_tokens chat_request;
     arg_temperature := temperature chat_request |}.

(** [openai_client.chat] on the module-level name. *)
Definition client_chat (c : option OpenAI) : M OpenAI :=
  match c with
  | Some client => mret client
  | None => raise (Raised AttributeError "'NoneType' object has no attribute 'chat'")
  end.

(** Lines 113-129: the body of the [try]. *)
Definition chat_body (g : Globals) (w : World) (chat_request : ChatRequest)
    : M (gmap string pyval) :=
  if negb (bool_of_str (openai_api_key g)) then
    raise (HTTPException 500 "OpenAI API key not configured")
  else if negb (bool_of_client (openai_client g)) then
    raise (HTTPException 500 "OpenAI client not initialized")
  else
    client ← client_chat (openai_client g);
    response ← completions_create w client (request_args chat_request);
    first ← getitem (completion.choices response) 0;
    let assistant_response := completion.content (completion.message first) in
    mret (dict_display [ KV "response" (optional_str assistant_response) ]).

Definition chat_with_openai (g : Globals) (w : World) (chat_request : ChatRequest)
    : M (gmap string pyval) :=
  try_except (chat_body g w chat_request)
    [ (AuthenticationError, fun _ =>
         raise (HTTPException 401 "Invalid OpenAI API key"));
      (RateLimitError, fun _ =>
         raise (HTTPException 429 "OpenAI API rate limit exceeded"));
      (APIError, fun e =>
         raise (HTTPException 500 ("OpenAI API error: " +:+ str e)));
      (Exception, fun e =>
         raise (HTTPException 500 ("Error processing chat request: " +:+ str e))) ].


(** ** Proof tools *)

Arguments dict_display : simpl never.
Arguments request_args : simpl never.

(** Unfold the monad down to functions on traces. *)
Ltac unfold_m :=
  unfold try_except, completions_create, open_read, client_chat, getitem,
    emit, lift, raise, mret, mbind, M_ret, M_bind, ret, bind.

(** Run a handler as far as its hypotheses-free part goes. *)
Ltac run_handler :=
  unfold chat_with_openai, chat_body, get_pdf_base64, get_user_data,
    health_check, welcome;
  unfold_m; cbn.

(** Close one direction of a case of a reply: the status differs, the
    witnesses are at hand, or the assumed run contradicts the case. *)
Ltac close_case :=
  first
    [ discriminate
    | solve [ intros _; repeat eexists; eassumption ]
    | solve [ intros; reflexivity ]
    | solve [ intros;
              repeat match goal with
                     | H : ex _ |- _ => destruct H
                     | H : _ /\ _ |- _ => destruct H
                     end;
              simplify_eq; congruence ] ].

(** [lia] also decides goals with division by a constant. *)
Ltac Zify.zify_post_hook ::= Z.to_euclidean_division_equations.

(** ** Properties *)

(** *** Decimal fields *)

Lemma digit_val_char (d : Z) :
  0 <= d <= 9 -> digit_val (digit_char d) = Some d.
Proof.
  intros Hd.
  assert (Hcases : d = 0 \/ d = 1 \/ d = 2 \/ d = 3 \/ d = 4 \/
                   d = 5 \/ d = 6 \/ d = 7 \/ d = 8 \/ d = 9) by lia.
  repeat (destruct Hcases as [-> | Hcases]; [reflexivity |]).
  subst d. reflexivity.
Qed.

Lemma append_cons (c : ascii) (s r : string) :
  String c s +:+ r = String c (s +:+ r).
Proof. reflexivity. Qed.

Lemma append_empty_l (r : string) : "" +:+ r = r.
Proof. reflexivity. Qed.

Lemma append_empty_r (s : string) : s +:+ "" = s.
Proof.
  induction s as [| c s IH]; [reflexivity |].
  rewrite append_cons. now rewrite IH.
Qed.

Lemma read_digits (w : nat) :
  forall n acc rest,
    0 <= n < 10 ^ Z.of_nat w ->
    read_number w acc (digits w n +:+ rest) = Some (acc * 10 ^ Z.of_nat w + n, rest).
Proof.
  induction w as [| w IH]; intros n acc rest Hn.
  - cbn. change (10 ^ Z.of_nat 0) with 1 in *. f_equal. f_equal. lia.
  - rewrite Nat2Z.inj_succ, Z.pow_succ_r in * by lia.
    set (p := 10 ^ Z.of_nat w) in *.
    assert (Hp : 0 < p) by (apply Z.pow_pos_nonneg; lia).
    cbn [digits]. rewrite append_cons. cbn [read_number]. fold p.
    assert (Hq : 0 <= n / p <= 9).
    { split; [apply Z.div_pos; lia |].
      assert (n / p < 10); [apply Z.div_lt_upper_bound; lia | lia]. }
    rewrite (digit_val_char _ Hq).
    rewrite IH by (apply Z.mod_pos_bound; lia).
    fold p. f_equal. f_equal.
    pose proof (Z.div_mod n p ltac:(lia)). nia.
Qed.

Lemma read_digits_end (w : nat) (n acc : Z) :
  0 <= n < 10 ^ Z.of_nat w ->
  read_number w acc (digits w n) = Some (acc * 10 ^ Z.of_nat w + n, "").
Proof.
  intros Hn. rewrite <- (append_empty_r (digits w n)) at 1.
  now apply read_digits.
Qed.

Lemma zero_pad_digits (w : nat) (n : Z) :
  n < 10 ^ Z.of_nat w -> zero_pad w n = digits w n.
Proof.
  intros Hn. unfold zero_pad.
  destruct (Z.ltb_spec n (10 ^ Z.of_nat w)); [reflexivity | lia].
Qed.

Lemma days_in_month_le (y m : Z) : days_in_month y m <= 31.
Proof.
  unfold days_in_month.
  repeat match goal with |- context [if ?b then _ else _] => destruct b end; lia.
Qed.

(** The ranges of a [datetime], as inequalities. *)
Lemma datetime_ranges (d : datetime) :
  1 <= year d <= 9999 /\ 1 <= month d <= 12 /\ 1 <= day d <= 31 /\
  0 <= hour d < 24 /\ 0 <= minute d < 60 /\ 0 <= second d < 60 /\
  0 <= microsecond d < 1000000.
Proof.
  pose proof (datetime_ok d) as H. unfold datetime_fields_ok in H.
  repeat (apply andb_prop in H; destruct H as [H ?]).
  pose proof (days_in_month_le (year d) (month d)).
  repeat match goal with
         | H : (_ <=? _) = true |- _ => apply Z.leb_le in H
         | H : (_ <? _) = true |- _ => apply Z.ltb_lt in H
         end.
  lia.
Qed.

Lemma parse_isoformat (d : datetime) :
  parse_iso8601 (isoformat d) = Some (fields_of d).
Proof.
  destruct (datetime_ranges d) as (Hy & Hmo & Hd & Hh & Hmi & Hs & Hus).
  unfold isoformat, parse_iso8601.
  rewrite !zero_pad_digits by (change (10 ^ Z.of_nat 4) with 10000;
    change (10 ^ Z.of_nat 2) with 100; change (10 ^ Z.of_nat 6) with 1000000; lia).
  rewrite read_digits by (change (10 ^ Z.of_nat 4) with 10000; lia).
  cbn [mbind option_bind]. rewrite append_cons, append_empty_l.
  cbn [expect]. rewrite bool_decide_eq_true_2 by done.
  cbn [mbind option_bind].
  do 4 (rewrite read_digits by (change (10 ^ Z.of_nat 2) with 100; lia);
        cbn [mbind option_bind]; rewrite append_cons, append_empty_l;
        cbn [expect];
        rewrite bool_decide_eq_true_2 by done; cbn [mbind option_bind]).
  rewrite read_digits by (change (10 ^ Z.of_nat 2) with 100; lia).
  cbn [mbind option_bind].
  unfold fields_of.
  destruct (Z.eqb_spec (microsecond d) 0) as [Hz | Hnz].
  - rewrite Hz. repeat f_equal; lia.
  - rewrite append_cons, append_empty_l. cbn [expect mbind option_bind].
    rewrite bool_decide_eq_true_2 by done. cbn [mbind option_bind].
    rewrite read_digits_end by (change (10 ^ Z.of_nat 6) with 1000000; lia).
    cbn [mbind option_bind]. repeat f_equal; lia.
Qed.

(** What [isoformat] prints is a well-formed ISO-8601 date-time. *)
Lemma isoformat_iso8601 (d : datetime) : is_iso8601 (isoformat d) = true.
Proof.
  unfold is_iso8601. rewrite parse_isoformat. exact (datetime_ok d).
Qed.

(** *** Base64 *)

Lemma b64_index_char (n : N) :
  (n < 64)%N -> b64_index (b64_char n) = Some n.
Proof.
  intros Hn. rewrite <- (N2Nat.id n).
  assert (Hk : (N.to_nat n < 64)%nat) by lia.
  clear Hn. generalize dependent (N.to_nat n). clear n. intros k Hk.
  do 64 (destruct k as [| k]; [vm_compute; reflexivity |]). lia.
Qed.

Lemma b64_char_not_pad (n : N) :
  (n < 64)%N -> Byte.eqb (b64_char n) b64_pad = false.
Proof.
  intros Hn. rewrite <- (N2Nat.id n).
  assert (Hk : (N.to_nat n < 64)%nat) by lia.
  clear Hn. generalize dependent (N.to_nat n). clear n. intros k Hk.
  do 64 (destruct k as [| k]; [vm_compute; reflexivity |]). lia.
Qed.

(** Every character of the alphabet is a seven-bit byte. *)
Lemma b64_char_seven_bit (n : N) : (Byte.to_N (b64_char n) < 128)%N.
Proof.
  unfold b64_char.
  assert (Hall : forallb (fun c => (Byte.to_N c <? 128)%N) b64_alphabet = true)
    by reflexivity.
  destruct (nth_in_or_default (N.to_nat n) b64_alphabet b64_pad) as [Hin | ->].
  - rewrite forallb_forall in Hall. apply N.ltb_lt, Hall, Hin.
  - reflexivity.
Qed.

Lemma list_ind3 {A} (P : list A -> Prop) :
  P [] -> (forall a, P [a]) -> (forall a b, P [a; b]) ->
  (forall a b c l, P l -> P (a :: b :: c :: l)) ->
  forall l, P l.
Proof.
  intros H0 H1 H2 H3.
  enough (H : forall l, P l /\ (forall a, P (a :: l)) /\ (forall a b, P (a :: b :: l)))
    by (intros l; apply H).
  induction l as [| x l (IH0 & IH1 & IH2)]; repeat split; auto.
Qed.

Lemma b64decode_encode (bs : list byte) : b64decode (b64encode bs) = Some bs.
Proof.
  induction bs as [| a | a b | a b c rest IH] using list_ind3.
  - reflexivity.
  - pose proof (Byte.to_N_bounded a) as Ha.
    cbn [b64encode b64decode].
    assert (Byte.eqb b64_pad b64_pad = true) as -> by reflexivity.
    rewrite !b64_index_char by lia. cbn [mbind option_bind].
    replace ((Byte.to_N a * 16 / 64 * 64 + Byte.to_N a * 16 mod 64) / 16)%N
      with (Byte.to_N a) by lia.
    now rewrite Byte.of_to_N.
  - pose proof (Byte.to_N_bounded a) as Ha.
    pose proof (Byte.to_N_bounded b) as Hb.
    cbn [b64encode b64decode].
    assert (Byte.eqb b64_pad b64_pad = true) as -> by reflexivity.
    rewrite b64_char_not_pad by lia.
    rewrite !b64_index_char by lia. cbn [mbind option_bind].
    set (n := ((Byte.to_N a * 256 + Byte.to_N b) * 4)%N).
    replace (n / 4096 * 4096 + n / 64 mod 64 * 64 + n mod 64)%N with n by lia.
    replace (n / 1024)%N with (Byte.to_N a) by lia.
    replace (n / 4 mod 256)%N with (Byte.to_N b) by lia.
    now rewrite !Byte.of_to_N.
  - pose proof (Byte.to_N_bounded a) as Ha.
    pose proof (Byte.to_N_bounded b) as Hb.
    pose proof (Byte.to_N_bounded c) as Hc.
    cbn [b64encode b64decode].
    set (n := (Byte.to_N a * 65536 + Byte.to_N b * 256 + Byte.to_N c)%N).
    rewrite b64_char_not_pad by lia.
    rewrite !b64_index_char by lia. cbn [mbind option_bind].
    replace (n / 262144 * 262144 + n / 4096 mod 64 * 4096 + n / 64 mod 64 * 64
             + n mod 64)%N with n by lia.
    replace (n / 65536)%N with (Byte.to_N a) by lia.
    replace (n / 256 mod 256)%N with (Byte.to_N b) by lia.
    replace (n mod 256)%N with (Byte.to_N c) by lia.
    rewrite !Byte.of_to_N. cbn [mbind option_bind].
    now rewrite IH.
Qed.

Lemma b64encode_seven_bit (bs : list byte) :
  Forall (fun c => (Byte.to_N c < 128)%N) (b64encode bs).
Proof.
  induction bs as [| a | a b | a b c rest IH] using list_ind3;
    cbn [b64encode]; repeat constructor;
    try apply b64_char_seven_bit; assumption.
Qed.

(** Decoding the text of an encoded byte string gives the bytes back. *)
Lemma b64_text_round_trip (bs : list byte) :
  b64decode (encode_utf8 (decode_utf8 (b64encode bs))) = Some bs.
Proof.
  unfold encode_utf8, decode_utf8.
  rewrite list_byte_of_string_of_list_byte. apply b64decode_encode.
Qed.

(** *** Running a handler *)

Lemma issubclass_auth_api : issubclass AuthenticationError APIError = true.
Proof. reflexivity. Qed.

Lemma issubclass_exception (c : exc_class) : issubclass c Exception = true.
Proof. destruct c; reflexivity. Qed.

(** Every exception of the model is caught by [except Exception]. *)
Lemma isinstance_exception (e : exn) : isinstance e Exception = true.
Proof. destruct e; [reflexivity | apply issubclass_exception]. Qed.

Lemma message_dict_pair (msg : ChatMessage) :
  message_dict msg = {[ "role" := PStr (role msg); "content" := PStr (content msg) ]}.
Proof. reflexivity. Qed.

(** C5, as the code has it.  With a key and a client configured and a
    remote call that returns at least one choice whose first choice carries
    a text, [/chat] makes one call to the completion service, whose
    arguments are the request's model, its messages as role/content
    dictionaries in the order of the request, its [max_tokens] and its
    [temperature]; the handler returns the dictionary whose only key is
    [response], bound to that text, so the reply has status 200 and no
    [usage] key. *)
Theorem chat_success (g : Globals) (w : World) (req : ChatRequest)
    (t : list event) (client : OpenAI) (reply : completion.ChatCompletion)
    (first : completion.Choice) (others : list completion.Choice)
    (text : string) :
  bool_of_str (openai_api_key g) = true ->
  openai_client g = Some client ->
  remote_create w client (request_args req) = Return reply ->
  completion.choices reply = first :: others ->
  completion.content (completion.message first) = Some text ->
  let sent := request_args req in
  chat_with_openai g w req t
    = (Return {[ "response" := PStr text ]}, t ++ [EvCreate client sent])
  /\ respond (chat_with_openai g w req t).1
    = {| status := 200; body := PDict {[ "response" := PStr text ]} |}
  /\ ({[ "response" := PStr text ]} : gmap string pyval) !! "usage" = None
  /\ arg_model sent = model req
  /\ arg_max_tokens sent = max_tokens req
  /\ arg_temperature sent = temperature req
  /\ length (arg_messages sent) = length (messages req)
  /\ (forall (i : nat) (msg : ChatMessage),
        messages req !! i = Some msg ->
        arg_messages sent !! i
          = Some {[ "role" := PStr (role msg); "content" := PStr (content msg) ]}).
Proof.
  intros Hkey Hclient Hremote Hchoices Htext sent.
  assert (Hrun : chat_with_openai g w req t
    = (Return {[ "response" := PStr text ]}, t ++ [EvCreate client sent])).
  { run_handler. rewrite Hkey, Hclient. cbn. rewrite Hremote.
    rewrite Hchoices. cbn. now rewrite Htext. }
  rewrite Hrun. repeat split.
  - unfold sent, request_args. cbn. apply length_map.
  - intros i msg Hi. unfold sent, request_args. cbn.
    rewrite list_lookup_fmap, Hi. cbn. now rewrite message_dict_pair.
Qed.

Lemma create_calls_snoc (t : list event) (c : OpenAI) (a : create_args) :
  create_calls (t ++ [EvCreate c a]) = create_calls t ++ [(c, a)].
Proof. unfold create_calls. now rewrite omap_app. Qed.

(** With a key and a client the handler always makes its one remote call,
    whatever the request holds and whatever the service answers. *)
Lemma chat_trace_configured (g : Globals) (w : World) (req : ChatRequest)
    (t : list event) (client : OpenAI) :
  bool_of_str (openai_api_key g) = true ->
  openai_client g = Some client ->
  (chat_with_openai g w req t).2 = t ++ [EvCreate client (request_args req)].
Proof.
  intros Hkey Hclient. run_handler. rewrite Hkey, Hclient. cbn.
  destruct (remote_create w client (request_args req)) as [reply | e].
  - destruct (completion.choices reply) as [| first others]; reflexivity.
  - destruct (isinstance e AuthenticationError); [reflexivity |].
    destruct (isinstance e RateLimitError); [reflexivity |].
    destruct (isinstance e APIError); [reflexivity |].
    now rewrite isinstance_exception.
Qed.

Lemma chat_body_trace_configured (g : Globals) (w : World) (req : ChatRequest)
    (t : list event) (client : OpenAI) :
  bool_of_str (openai_api_key g) = true ->
  openai_client g = Some client ->
  (chat_body g w req t).2 = t ++ [EvCreate client (request_args req)].
Proof.
  intros Hkey Hclient. unfold chat_body. unfold_m. rewrite Hkey, Hclient. cbn.
  destruct (remote_create w client (request_args req)) as [reply | e];
    [| reflexivity].
  destruct (completion.choices reply) as [| first others]; reflexivity.
Qed.

(** What the handler raises is always an [HTTPException]. *)
Lemma chat_raises_http_only (g : Globals) (w : World) (req : ChatRequest)
    (t : list event) :
  (exists d, (chat_with_openai g w req t).1 = Return d) \/
  (exists sc msg, (chat_with_openai g w req t).1 = Raise (HTTPException sc msg)).
Proof.
  run_handler.
  destruct (bool_of_str (openai_api_key g)); cbn; [| right; eauto].
  destruct (openai_client g) as [client |]; cbn; [| right; eauto].
  destruct (remote_create w client (request_args req)) as [reply | e].
  - destruct (completion.choices reply) as [| first others]; cbn;
      [right | left]; eauto.
  - destruct (isinstance e AuthenticationError); [right; eauto |].
    destruct (isinstance e RateLimitError); [right; eauto |].
    destruct (isinstance e APIError); [right; eauto |].
    rewrite isinstance_exception. right; eauto.
Qed.

(** C4. When the remote call of [/chat] raises, the handler answers by the
    class of the exception, tested in this order: an [AuthenticationError]
    gives 401 "Invalid OpenAI API key"; a [RateLimitError] gives 429
    "OpenAI API rate limit exceeded"; any other [APIError] gives 500 with
    "OpenAI API error: " and the error text; every other exception gives
    500 with "Error processing chat request: " and the error text.  The
    service was called once and is not called again. *)
Theorem chat_remote_failure (g : Globals) (w : World) (req : ChatRequest)
    (t : list event) (client : OpenAI) (e : exn) :
  bool_of_str (openai_api_key g) = true ->
  openai_client g = Some client ->
  remote_create w client (request_args req) = Raise e ->
  exists sc msg,
    chat_with_openai g w req t
      = (Raise (HTTPException sc msg), t ++ [EvCreate client (request_args req)])
    /\ status (respond (chat_with_openai g w req t).1) = sc
    /\ create_calls (chat_with_openai g w req t).2
        = create_calls t ++ [(client, request_args req)]
    /\ (isinstance e AuthenticationError = true ->
         sc = 401 /\ msg = "Invalid OpenAI API key")
    /\ (isinstance e AuthenticationError = false ->
         isinstance e RateLimitError = true ->
         sc = 429 /\ msg = "OpenAI API rate limit exceeded")
    /\ (isinstance e AuthenticationError = false ->
         isinstance e RateLimitError = false ->
         isinstance e APIError = true ->
         sc = 500 /\ msg = "OpenAI API error: " +:+ str e)
    /\ (isinstance e AuthenticationError = false ->
         isinstance e RateLimitError = false ->
         isinstance e APIError = false ->
         sc = 500 /\ msg = "Error processing chat request: " +:+ str e).
Proof.
  intros Hkey Hclient Hremote.
  assert (Hrun : exists sc msg,
    chat_with_openai g w req t
      = (Raise (HTTPException sc msg), t ++ [EvCreate client (request_args req)])
    /\ (isinstance e AuthenticationError = true ->
         sc = 401 /\ msg = "Invalid OpenAI API key")
    /\ (isinstance e AuthenticationError = false ->
         isinstance e RateLimitError = true ->
         sc = 429 /\ msg = "OpenAI API rate limit exceeded")
    /\ (isinstance e AuthenticationError = false ->
         isinstance e RateLimitError = false ->
         isinstance e APIError = true ->
         sc = 500 /\ msg = "OpenAI API error: " +:+ str e)
    /\ (isinstance e AuthenticationError = false ->
         isinstance e RateLimitError = false ->
         isinstance e APIError = false ->
         sc = 500 /\ msg = "Error processing chat request: " +:+ str e)).
  { run_handler. rewrite Hkey, Hclient. cbn. rewrite Hremote.
    destruct (isinstance e AuthenticationError) eqn:Hauth;
      [| destruct (isinstance e RateLimitError) eqn:Hrate;
         [| destruct (isinstance e APIError) eqn:Hapi;
            [| rewrite isinstance_exception ]]];
      eexists _, _; (split; [reflexivity |]);
      repeat split; intros; congruence. }
  destruct Hrun as (sc & msg & Hrun & Hcases).
  exists sc, msg. rewrite Hrun. cbn [fst snd].
  rewrite create_calls_snoc.
  split; [reflexivity |]. split; [reflexivity |]. split; [reflexivity |].
  exact Hcases.
Qed.

(** C10. The handler never lets anything but an [HTTPException] out.  In
    particular, when the remote call succeeds with an empty list of
    choices, [response.choices[0]] raises [IndexError], the last [except]
    clause catches it, and the reply is a 500 whose detail is
    "Error processing chat request: list index out of range". *)
Theorem chat_empty_choices (g : Globals) (w : World) (req : ChatRequest)
    (t : list event) :
  ((exists d, (chat_with_openai g w req t).1 = Return d) \/
   (exists sc msg, (chat_with_openai g w req t).1 = Raise (HTTPException sc msg)))
  /\ forall (client : OpenAI) (reply : completion.ChatCompletion),
       bool_of_str (openai_api_key g) = true ->
       openai_client g = Some client ->
       remote_create w client (request_args req) = Return reply ->
       completion.choices reply = [] ->
       chat_with_openai g w req t
         = (Raise (HTTPException 500
                     "Error processing chat request: list index out of range"),
            t ++ [EvCreate client (request_args req)])
       /\ respond (chat_with_openai g w req t).1
         = {| status := 500;
              body := PDict {[ "detail" :=
                PStr "Error processing chat request: list index out of range" ]} |}.
Proof.
  split; [apply chat_raises_http_only |].
  intros client reply Hkey Hclient Hremote Hchoices.
  assert (Hrun : chat_with_openai g w req t
    = (Raise (HTTPException 500
                "Error processing chat request: list index out of range"),
       t ++ [EvCreate client (request_args req)])).
  { run_handler. rewrite Hkey, Hclient. cbn. rewrite Hremote, Hchoices.
    reflexivity. }
  now rewrite Hrun.
Qed.

(** *** [/chat]: the two precondition checks *)

(** A text that starts with the prefix of the last [except] clause is not
    one of the two precondition messages. *)
Lemma wrapped_detail_differs (inner : string) :
  "Error processing chat request: " +:+ inner <> "OpenAI API key not configured"
  /\ "Error processing chat request: " +:+ inner <> "OpenAI client not initialized".
Proof. split; rewrite append_cons; discriminate. Qed.

Lemma chat_key_missing_run (g : Globals) (w : World) (req : ChatRequest)
    (t : list event) :
  bool_of_str (openai_api_key g) = false ->
  chat_with_openai g w req t
    = (Raise (HTTPException 500
         ("Error processing chat request: "
            +:+ HTTPException_str 500 "OpenAI API key not configured")), t).
Proof. intros Hkey. run_handler. now rewrite Hkey. Qed.

(** C2, on the code.  With no key configured the handler raises
    [HTTPException(500, "OpenAI API key not configured")] inside its own
    [try]; the clause [except Exception] catches it and raises a second
    one, whose detail is the prefix "Error processing chat request: "
    followed by [str] of the first.  The status is 500, no remote call is
    made, and the detail is not the message of the check. *)
Theorem chat_key_missing (g : Globals) (w : World) (req : ChatRequest)
    (t : list event) :
  bool_of_str (openai_api_key g) = false ->
  chat_with_openai g w req t
    = (Raise (HTTPException 500
         ("Error processing chat request: "
            +:+ HTTPException_str 500 "OpenAI API key not configured")), t)
  /\ "Error processing chat request: "
       +:+ HTTPException_str 500 "OpenAI API key not configured"
     <> "OpenAI API key not configured".
Proof.
  intros Hkey. split; [| apply wrapped_detail_differs].
  now apply chat_key_missing_run.
Qed.

(** The second check is wrapped in the same way. *)
Lemma chat_client_missing (g : Globals) (w : World) (req : ChatRequest)
    (t : list event) :
  bool_of_str (openai_api_key g) = true ->
  openai_client g = None ->
  chat_with_openai g w req t
    = (Raise (HTTPException 500
         ("Error processing chat request: "
            +:+ HTTPException_str 500 "OpenAI client not initialized")), t).
Proof. intros Hkey Hclient. run_handler. now rewrite Hkey, Hclient. Qed.

(** The body of the [try] does raise the two messages, in the order of the
    checks and before any remote call. *)
Lemma chat_body_checks (g : Globals) (w : World) (req : ChatRequest)
    (t : list event) :
  (bool_of_str (openai_api_key g) = false ->
   chat_body g w req t
     = (Raise (HTTPException 500 "OpenAI API key not configured"), t))
  /\ (bool_of_str (openai_api_key g) = true -> openai_client g = None ->
      chat_body g w req t
        = (Raise (HTTPException 500 "OpenAI client not initialized"), t)).
Proof.
  split.
  - intros Hkey. unfold chat_body. now rewrite Hkey.
  - intros Hkey Hclient. unfold chat_body. now rewrite Hkey, Hclient.
Qed.

(** C9. At import the client is built exactly when the key is set and not
    empty, and with that key.  So in a process started by [startup] the
    second check never fires: the try body never ends with
    [HTTPException(500, "OpenAI client not initialized")] before a remote
    call, and once the key check passes the handler goes on to its remote
    call. *)
Theorem client_check_unreachable (w0 : World) :
  bool_of_client (openai_client (startup w0))
    = bool_of_str (openai_api_key (startup w0))
  /\ (forall k, openai_client (startup w0) = Some k ->
        openai_api_key (startup w0) = Some (api_key k))
  /\ (forall (w : World) (req : ChatRequest) (t : list event),
        chat_body (startup w0) w req t
          <> (Raise (HTTPException 500 "OpenAI client not initialized"), t))
  /\ (bool_of_str (openai_api_key (startup w0)) = true ->
      exists k, openai_client (startup w0) = Some k
        /\ forall (w : World) (req : ChatRequest) (t : list event),
             (chat_with_openai (startup w0) w req t).2
               = t ++ [EvCreate k (request_args req)]).
Proof.
  unfold startup. cbn [openai_api_key openai_client].
  destruct (getenv w0 "OPENAI_API_KEY") as [key |] eqn:Henv.
  - destruct (bool_of_str (Some key)) eqn:Hkey.
    + split; [reflexivity |]. split; [intros k [= <-]; reflexivity |]. split.
      * intros w req t Heq.
        pose proof (chat_body_trace_configured
          {| openai_api_key := Some key;
             openai_client := Some {| api_key := key |} |} w req t
          {| api_key := key |} Hkey eq_refl) as Htrace.
        rewrite Heq in Htrace. cbn [snd] in Htrace.
        apply (f_equal length) in Htrace. rewrite length_app in Htrace.
        cbn [length] in Htrace. lia.
      * intros _. exists {| api_key := key |}. split; [reflexivity |].
        intros w req t. now apply chat_trace_configured.
    + split; [reflexivity |]. split; [intros k [=] |]. split.
      * intros w req t. unfold chat_body.
        cbn [openai_api_key]. rewrite Hkey. cbn. unfold raise. intros [=].
      * intros [=].
  - split; [reflexivity |]. split; [intros k [=] |]. split.
    + intros w req t. unfold chat_body. cbn. unfold raise. intros [=].
    + intros [=].
Qed.

(** *** [/chat]: roles *)

(** C3, on the code.  The comment of [ChatMessage] names three roles, and
    nothing checks them: with a key and a client configured, every request
    makes exactly one call to the completion service, and each message is
    sent with the role it came with, whatever that role is. *)
Theorem chat_forwards_any_role (g : Globals) (w : World) (req : ChatRequest)
    (t : list event) (client : OpenAI) :
  bool_of_str (openai_api_key g) = true ->
  openai_client g = Some client ->
  create_calls (chat_with_openai g w req t).2
    = create_calls t ++ [(client, request_args req)]
  /\ forall (i : nat) (msg : ChatMessage),
       messages req !! i = Some msg ->
       arg_messages (request_args req) !! i
         = Some {[ "role" := PStr (role msg); "content" := PStr (content msg) ]}.
Proof.
  intros Hkey Hclient. split.
  - rewrite (chat_trace_configured g w req t client Hkey Hclient).
    apply create_calls_snoc.
  - intros i msg Hi. unfold request_args. cbn [arg_messages].
    rewrite list_lookup_fmap, Hi. cbn. now rewrite message_dict_pair.
Qed.

(** *** [/pdf] *)

Lemma pdf_missing_run (w : World) (t : list event) :
  path_exists w PDF_FILE_PATH = false ->
  get_pdf_base64 w t
    = (Raise (HTTPException 500
         ("Error processing PDF file: "
            +:+ HTTPException_str 404 "PDF file 'document.pdf' not found")), t).
Proof. intros Hmissing. run_handler. now rewrite Hmissing. Qed.

(** C1, on the code.  When nothing exists at the configured path the
    handler raises [HTTPException(404, ...)] inside its own [try]; the
    clause [except Exception] catches it and raises a 500 whose detail is
    "Error processing PDF file: " followed by [str] of the 404.  The reply
    has status 500, not 404, and the file is not opened. *)
Theorem pdf_missing_is_500 (w : World) (t : list event) :
  path_exists w PDF_FILE_PATH = false ->
  get_pdf_base64 w t
    = (Raise (HTTPException 500
         ("Error processing PDF file: "
            +:+ HTTPException_str 404 "PDF file 'document.pdf' not found")), t)
  /\ status (respond (get_pdf_base64 w t).1) = 500
  /\ status (respond (get_pdf_base64 w t).1) <> 404.
Proof.
  intros Hmissing. rewrite (pdf_missing_run w t Hmissing).
  repeat split. discriminate.
Qed.

(** The second error case of [/pdf]: the path exists and reading fails. *)
Lemma pdf_read_failure (w : World) (t : list event) (e : exn) :
  path_exists w PDF_FILE_PATH = true ->
  read_file w PDF_FILE_PATH = Raise e ->
  get_pdf_base64 w t
    = (Raise (HTTPException 500 ("Error processing PDF file: " +:+ str e)),
       t ++ [EvRead PDF_FILE_PATH]).
Proof.
  intros Hexists Hread. run_handler. rewrite Hexists. cbn.
  change "document.pdf" with PDF_FILE_PATH. rewrite Hread.
  now rewrite isinstance_exception.
Qed.

(** C7. When the file exists and is read, [/pdf] returns its bytes in
    base64: decoding the [data] field gives back exactly the bytes read. *)
Theorem pdf_round_trip (w : World) (t : list event) (pdf_content : list byte) :
  path_exists w PDF_FILE_PATH = true ->
  read_file w PDF_FILE_PATH = Return pdf_content ->
  exists data : string,
    get_pdf_base64 w t
      = (Return {[ "success" := PBool true; "data" := PStr data ]},
         t ++ [EvRead PDF_FILE_PATH])
    /\ status (respond (get_pdf_base64 w t).1) = 200
    /\ b64decode (encode_utf8 data) = Some pdf_content.
Proof.
  intros Hexists Hread.
  exists (decode_utf8 (b64encode pdf_content)).
  assert (Hrun : get_pdf_base64 w t
    = (Return {[ "success" := PBool true;
                 "data" := PStr (decode_utf8 (b64encode pdf_content)) ]},
       t ++ [EvRead PDF_FILE_PATH])).
  { run_handler. rewrite Hexists. cbn.
    change "document.pdf" with PDF_FILE_PATH. now rewrite Hread. }
  rewrite Hrun. split; [reflexivity |]. split; [reflexivity |].
  apply b64_text_round_trip.
Qed.

(** *** [/health] *)

(** C8. The health check has no error path: it returns, with status 200, a
    dictionary of exactly six keys, where [success] is true, [message] and
    [version] are strings, [timestamp] is the well-formed ISO-8601 text of
    the current time, and [pdf_exists] and [openai_configured] are
    booleans. *)
Theorem health_check_succeeds (g : Globals) (w : World) (t : list event) :
  exists (d : gmap string pyval) (message timestamp version : string)
         (pdf_exists openai_configured : bool),
    health_check g w t = (Return d, t)
    /\ status (respond (health_check g w t).1) = 200
    /\ d !! "success" = Some (PBool true)
    /\ d !! "message" = Some (PStr message)
    /\ d !! "timestamp" = Some (PStr timestamp)
    /\ timestamp = isoformat (now w)
    /\ is_iso8601 timestamp = true
    /\ d !! "version" = Some (PStr version)
    /\ d !! "pdf_exists" = Some (PBool pdf_exists)
    /\ d !! "openai_configured" = Some (PBool openai_configured)
    /\ dom d = {[ "success"; "message"; "timestamp"; "version"; "pdf_exists";
                  "openai_configured" ]}.
Proof.
  eexists _, _, _, _, _, _.
  split; [reflexivity |].
  repeat (split; [reflexivity |]).
  split; [apply isoformat_iso8601 |].
  repeat (split; [reflexivity |]).
  unfold dict_display. cbn [foldl]. rewrite !dom_insert_L, dom_empty_L.
  set_solver.
Qed.

(** *** [/user] *)

(** The dictionary [/user] builds, read key by key. *)
Lemma user_data_lookup (k : string) :
  dict_display
    [ Unpack DEFAULT_USER_PROFILE;
      KV "suggestedActions" (PList SUGGESTED_ACTIONS_DATA);
      KV "documents" (PList DOCUMENTS_DATA) ] !! k
  = if bool_decide (k = "documents") then Some (PList DOCUMENTS_DATA)
    else if bool_decide (k = "suggestedActions")
         then Some (PList SUGGESTED_ACTIONS_DATA)
         else DEFAULT_USER_PROFILE !! k.
Proof.
  unfold dict_display. cbn [foldl]. rewrite map_union_empty.
  destruct (decide (k = "documents")) as [-> | Hdocs];
    [now rewrite lookup_insert_eq |].
  rewrite lookup_insert_ne, (bool_decide_eq_false_2 _ Hdocs) by congruence.
  destruct (decide (k = "suggestedActions")) as [-> | Hactions];
    [now rewrite lookup_insert_eq |].
  now rewrite lookup_insert_ne, (bool_decide_eq_false_2 _ Hactions) by congruence.
Qed.

(** A field of the base profile under one of the two added keys is
    replaced: the later entry of the display wins. *)
Lemma user_data_collision (v : pyval) :
  DEFAULT_USER_PROFILE !! "documents" = Some v ->
  dict_display
    [ Unpack DEFAULT_USER_PROFILE;
      KV "suggestedActions" (PList SUGGESTED_ACTIONS_DATA);
      KV "documents" (PList DOCUMENTS_DATA) ] !! "documents"
  = Some (PList DOCUMENTS_DATA).
Proof. intros _. now rewrite user_data_lookup. Qed.

(** The dictionary of [/user] for any base profile: [data] holds
    [suggestedActions] and [documents] as lists, every field the base
    profile keeps under another key, and nothing else. *)
Lemma user_data_merge (t : list event) :
  exists data : gmap string pyval,
    get_user_data t
      = (Return {[ "success" := PBool true; "data" := PDict data ]}, t)
    /\ status (respond (get_user_data t).1) = 200
    /\ data !! "suggestedActions" = Some (PList SUGGESTED_ACTIONS_DATA)
    /\ data !! "documents" = Some (PList DOCUMENTS_DATA)
    /\ (forall k, k <> "suggestedActions" -> k <> "documents" ->
          data !! k = DEFAULT_USER_PROFILE !! k)
    /\ dom data = dom DEFAULT_USER_PROFILE ∪ {[ "suggestedActions"; "documents" ]}
    /\ (DEFAULT_USER_PROFILE !! "suggestedActions" = None ->
        DEFAULT_USER_PROFILE !! "documents" = None ->
        forall k v, DEFAULT_USER_PROFILE !! k = Some v -> data !! k = Some v).
Proof.
  eexists. split; [reflexivity |]. split; [reflexivity |].
  rewrite !user_data_lookup.
  split; [reflexivity |]. split; [reflexivity |]. split; [| split].
  - intros k Hk2 Hk1. rewrite user_data_lookup.
    now rewrite (bool_decide_eq_false_2 _ Hk1), (bool_decide_eq_false_2 _ Hk2).
  - unfold dict_display. cbn [foldl]. rewrite map_union_empty.
    rewrite !dom_insert_L. apply set_eq. intros k.
    rewrite !elem_of_union, !elem_of_singleton. tauto.
  - intros Hactions Hdocs k v Hk. rewrite user_data_lookup.
    destruct (decide (k = "documents")) as [-> | Hk1]; [congruence |].
    rewrite (bool_decide_eq_false_2 _ Hk1).
    destruct (decide (k = "suggestedActions")) as [-> | Hk2]; [congruence |].
    now rewrite (bool_decide_eq_false_2 _ Hk2).
Qed.


(** ** Further properties of the handlers *)

(** After [startup] the two checks of [/chat] agree. *)
Lemma client_check_coherent (w0 : World) :
  bool_of_client (openai_client (startup w0))
    = bool_of_str (openai_api_key (startup w0))
  /\ (openai_client (startup w0) = None ->
      bool_of_str (openai_api_key (startup w0)) = false).
Proof.
  unfold startup. cbn [openai_api_key openai_client].
  destruct (getenv w0 "OPENAI_API_KEY") as [key |]; [| now split].
  destruct (bool_of_str (Some key)) eqn:Hkey; split;
    try reflexivity; try discriminate.
Qed.

Lemma snoc_neq {A} (l : list A) (x : A) : l ++ [x] <> l.
Proof.
  intros Heq. apply (f_equal length) in Heq.
  rewrite length_app in Heq. cbn [length] in Heq. lia.
Qed.

(** *** [/pdf] *)

(** X1. When the path exists and opening or reading the file raises, [/pdf]
    answers 500; the detail is "Error processing PDF file: " followed by
    the text of the error, and the body is [{"detail": ...}].  The read was
    tried once. *)
Theorem pdf_read_error (w : World) (t : list event) (e : exn) :
  path_exists w PDF_FILE_PATH = true ->
  read_file w PDF_FILE_PATH = Raise e ->
  get_pdf_base64 w t
    = (Raise (HTTPException 500 ("Error processing PDF file: " +:+ str e)),
       t ++ [EvRead PDF_FILE_PATH])
  /\ respond (get_pdf_base64 w t).1
    = {| status := 500;
         body := PDict {[ "detail" :=
                   PStr ("Error processing PDF file: " +:+ str e) ]} |}.
Proof.
  intros Hexists Hread.
  now rewrite (pdf_read_failure w t e Hexists Hread).
Qed.

(** X2. [/pdf] answers 200 or 500 and nothing else, and it answers 200
    exactly when the path exists and the file is read. *)
Theorem pdf_status_cases (w : World) (t : list event) :
  (status (respond (get_pdf_base64 w t).1) = 200
   \/ status (respond (get_pdf_base64 w t).1) = 500)
  /\ (status (respond (get_pdf_base64 w t).1) = 200 <->
      path_exists w PDF_FILE_PATH = true
      /\ exists pdf_content, read_file w PDF_FILE_PATH = Return pdf_content).
Proof.
  destruct (path_exists w PDF_FILE_PATH) eqn:Hexists.
  - destruct (read_file w PDF_FILE_PATH) as [pdf_content | e] eqn:Hread.
    + assert (Hrun : (get_pdf_base64 w t).1
        = Return (dict_display
            [ KV "success" (PBool true);
              KV "data" (PStr (decode_utf8 (b64encode pdf_content))) ])).
      { run_handler. rewrite Hexists. cbn.
        change "document.pdf" with PDF_FILE_PATH. now rewrite Hread. }
      rewrite Hrun. cbn. split; [now left |]. split; [eauto | reflexivity].
    + rewrite (pdf_read_failure w t e Hexists Hread). cbn.
      split; [now right |]. split; [discriminate |].
      intros [_ [pdf_content [=]]].
  - rewrite (pdf_missing_run w t Hexists). cbn.
    split; [now right |]. split; [discriminate |]. intros [[=] _].
Qed.

Lemma pdf_trace (w : World) (t : list event) :
  (get_pdf_base64 w t).2
  = if path_exists w PDF_FILE_PATH then t ++ [EvRead PDF_FILE_PATH] else t.
Proof.
  destruct (path_exists w PDF_FILE_PATH) eqn:Hexists.
  - destruct (read_file w PDF_FILE_PATH) as [pdf_content | e] eqn:Hread.
    + run_handler. rewrite Hexists. cbn.
      change "document.pdf" with PDF_FILE_PATH. now rewrite Hread.
    + now rewrite (pdf_read_failure w t e Hexists Hread).
  - now rewrite (pdf_missing_run w t Hexists).
Qed.

(** X3. [/pdf] keeps nothing between calls: each call opens the file when
    the path exists, so two calls in a row read it twice; it opens no other
    path, does not open the file when the path does not exist, and never
    calls the completion service. *)
Theorem pdf_reads_each_call (w : World) (t : list event) :
  (get_pdf_base64 w t).2
    = (if path_exists w PDF_FILE_PATH then t ++ [EvRead PDF_FILE_PATH] else t)
  /\ (get_pdf_base64 w (get_pdf_base64 w t).2).2
    = (if path_exists w PDF_FILE_PATH
       then t ++ [EvRead PDF_FILE_PATH; EvRead PDF_FILE_PATH] else t)
  /\ create_calls (get_pdf_base64 w t).2 = create_calls t.
Proof.
  rewrite !pdf_trace.
  destruct (path_exists w PDF_FILE_PATH); repeat split.
  - now rewrite <- app_assoc.
  - unfold create_calls. rewrite omap_app. cbn. apply app_nil_r.
Qed.

(** *** [/chat] *)

(** X4. [/chat] calls the completion service at most once per request:
    exactly once, with the arguments of the request, when the key is set
    and the client is there, and not at all otherwise, whatever the service
    answers.  It never opens a file. *)
Theorem chat_remote_calls (g : Globals) (w : World) (req : ChatRequest)
    (t : list event) :
  (chat_with_openai g w req t).2
  = match openai_client g with
    | Some client =>
        if bool_of_str (openai_api_key g)
        then t ++ [EvCreate client (request_args req)]
        else t
    | None => t
    end.
Proof.
  destruct (bool_of_str (openai_api_key g)) eqn:Hkey.
  - destruct (openai_client g) as [client |] eqn:Hclient.
    + now apply chat_trace_configured.
    + now rewrite (chat_client_missing g w req t Hkey Hclient).
  - rewrite (chat_key_missing_run g w req t Hkey).
    now destruct (openai_client g).
Qed.

(** What [/chat] answers when the key and the client are there, by what
    the completion service does. *)
Lemma chat_configured_result (g : Globals) (w : World) (req : ChatRequest)
    (t : list event) (client : OpenAI) :
  bool_of_str (openai_api_key g) = true ->
  openai_client g = Some client ->
  (chat_with_openai g w req t).1
  = match remote_create w client (request_args req) with
    | Return reply =>
        match completion.choices reply with
        | first :: _ =>
            Return {[ "response" :=
              optional_str (completion.content (completion.message first)) ]}
        | [] =>
            Raise (HTTPException 500
              "Error processing chat request: list index out of range")
        end
    | Raise e =>
        if isinstance e AuthenticationError
        then Raise (HTTPException 401 "Invalid OpenAI API key")
        else if isinstance e RateLimitError
        then Raise (HTTPException 429 "OpenAI API rate limit exceeded")
        else if isinstance e APIError
        then Raise (HTTPException 500 ("OpenAI API error: " +:+ str e))
        else Raise (HTTPException 500
                      ("Error processing chat request: " +:+ str e))
    end.
Proof.
  intros Hkey Hclient. run_handler. rewrite Hkey, Hclient. cbn.
  destruct (remote_create w client (request_args req)) as [reply | e].
  - destruct (completion.choices reply) as [| first others]; reflexivity.
  - destruct (isinstance e AuthenticationError); [reflexivity |].
    destruct (isinstance e RateLimitError); [reflexivity |].
    destruct (isinstance e APIError); [reflexivity |].
    now rewrite isinstance_exception.
Qed.

(** X5. [/chat] answers 200, 401, 429 or 500 and nothing else.  It answers
    200 exactly when the key is set, the client is there and the service
    returns at least one choice; 401 exactly when the call to the service
    raises an [AuthenticationError]; 429 exactly when it raises a
    [RateLimitError]. *)
Theorem chat_status_cases (g : Globals) (w : World) (req : ChatRequest)
    (t : list event) :
  let code := status (respond (chat_with_openai g w req t).1) in
  let called (c : OpenAI) :=
    bool_of_str (openai_api_key g) = true /\ openai_client g = Some c in
  (code = 200 \/ code = 401 \/ code = 429 \/ code = 500)
  /\ (code = 200 <->
      exists c reply first others,
        called c
        /\ remote_create w c (request_args req) = Return reply
        /\ completion.choices reply = first :: others)
  /\ (code = 401 <->
      exists c e,
        called c
        /\ remote_create w c (request_args req) = Raise e
        /\ isinstance e AuthenticationError = true)
  /\ (code = 429 <->
      exists c e,
        called c
        /\ remote_create w c (request_args req) = Raise e
        /\ isinstance e AuthenticationError = false
        /\ isinstance e RateLimitError = true).
Proof.
  intros code called. subst code called. cbv beta.
  destruct (bool_of_str (openai_api_key g)) eqn:Hkey.
  - destruct (openai_client g) as [client |] eqn:Hclient.
    + rewrite (chat_configured_result g w req t client Hkey Hclient).
      destruct (remote_create w client (request_args req)) as [reply | e]
        eqn:Hremote.
      * destruct (completion.choices reply) as [| first others] eqn:Hchoices;
          cbn; (split; [tauto |]); repeat split; close_case.
      * destruct (isinstance e AuthenticationError) eqn:Hauth;
          [| destruct (isinstance e RateLimitError) eqn:Hrate;
             [| destruct (isinstance e APIError) eqn:Hapi ]];
          cbn; (split; [tauto |]); repeat split; close_case.
    + rewrite (chat_client_missing g w req t Hkey Hclient). cbn.
      split; [tauto |]. repeat split; close_case.
  - rewrite (chat_key_missing_run g w req t Hkey). cbn.
    split; [tauto |]. repeat split; close_case.
Qed.

(** *** Start-up and [/health] *)

(** X6. The client is built from the environment variable [OPENAI_API_KEY]
    and from nothing else: it exists, with that key, exactly when the
    variable is set to a text that is not empty.  A variable set to the empty
    text counts as no key. *)
Theorem startup_client_iff_env (w : World) (k : string) :
  (openai_client (startup w) = Some {| api_key := k |} <->
   environ w !! "OPENAI_API_KEY" = Some k /\ k <> "")
  /\ (openai_client (startup w) = None <->
      environ w !! "OPENAI_API_KEY" = None
      \/ environ w !! "OPENAI_API_KEY" = Some "").
Proof.
  unfold startup, getenv. cbn [openai_client].
  destruct (environ w !! "OPENAI_API_KEY") as [key |] eqn:Henv.
  - cbn [bool_of_str].
    destruct (String.eqb_spec key "") as [-> | Hne]; cbn [negb].
    + split; split; try discriminate; try tauto.
      intros [[= <-] Hk]. now contradiction Hk.
    + split; split; try discriminate.
      * intros [= <-]. now split.
      * now intros [[= <-] _].
      * intros [[=] | [= ->]]. now contradiction Hne.
  - split; split; try tauto; try discriminate.
    now intros [[=] _].
Qed.

(** X7. What [/health] reports is what the other two handlers do in the
    same process: [openai_configured] is true exactly when [/chat] goes as
    far as calling the completion service, and [pdf_exists] is true exactly
    when [/pdf] opens the file. *)
Theorem health_flags_predict (w0 w : World) (req : ChatRequest)
    (t : list event) :
  exists d : gmap string pyval,
    health_check (startup w0) w t = (Return d, t)
    /\ (d !! "openai_configured" = Some (PBool true) <->
        exists client,
          (chat_with_openai (startup w0) w req t).2
            = t ++ [EvCreate client (request_args req)])
    /\ (d !! "pdf_exists" = Some (PBool true) <->
        (get_pdf_base64 w t).2 = t ++ [EvRead PDF_FILE_PATH]).
Proof.
  eexists. split; [reflexivity |].
  assert (Hflag : forall b : bool, Some (PBool b) = Some (PBool true) <-> b = true).
  { intros b. split; [now intros [= ->] | now intros ->]. }
  split.
  - change (Some (PBool (bool_of_str (openai_api_key (startup w0))))
            = Some (PBool true) <->
            exists client,
              (chat_with_openai (startup w0) w req t).2
                = t ++ [EvCreate client (request_args req)]).
    rewrite Hflag, chat_remote_calls.
    destruct (client_check_coherent w0) as [Hsame _].
    destruct (bool_of_str (openai_api_key (startup w0))) eqn:Hkey.
    + destruct (openai_client (startup w0)) as [client |]; [| discriminate].
      split; [eauto | reflexivity].
    + split; [discriminate |]. intros [client Heq].
      destruct (openai_client (startup w0));
        symmetry in Heq; now apply snoc_neq in Heq.
  - change (Some (PBool (path_exists w PDF_FILE_PATH)) = Some (PBool true) <->
            (get_pdf_base64 w t).2 = t ++ [EvRead PDF_FILE_PATH]).
    rewrite Hflag, pdf_trace.
    destruct (path_exists w PDF_FILE_PATH); split; try reflexivity;
      try discriminate.
    intros Heq. symmetry in Heq. now apply snoc_neq in Heq.
Qed.

(** X8. The timestamp of [/health] loses nothing of what [datetime.now()]
    showed: read back, it gives its year, month, day, hour, minute, second
    and microsecond, so two replies carry the same timestamp only when the
    clock showed the same seven fields at both calls. *)
Theorem health_timestamp_round_trip (g : Globals) (w : World) (t : list event) :
  exists (d : gmap string pyval) (timestamp : string),
    health_check g w t = (Return d, t)
    /\ d !! "timestamp" = Some (PStr timestamp)
    /\ parse_iso8601 timestamp = Some (fields_of (now w))
    /\ forall (g' : Globals) (w' : World) (t' : list event)
              (d' : gmap string pyval),
         health_check g' w' t' = (Return d', t') ->
         d' !! "timestamp" = Some (PStr timestamp) ->
         fields_of (now w') = fields_of (now w).
Proof.
  eexists _, _. split; [reflexivity |]. split; [reflexivity |].
  split; [apply parse_isoformat |].
  intros g' w' t' d' Hrun Hts.
  injection Hrun as <-.
  change (Some (PStr (isoformat (now w'))) = Some (PStr (isoformat (now w))))
    in Hts.
  injection Hts as Hts.
  pose proof (parse_isoformat (now w')) as Hparse.
  rewrite Hts, parse_isoformat in Hparse. congruence.
Qed.

(** *** What is sent and what comes back *)

Lemma message_dict_inj (m1 m2 : ChatMessage) :
  message_dict m1 = message_dict m2 -> m1 = m2.
Proof.
  intros Heq.
  pose proof (f_equal (fun d => d !! "role") Heq) as Hrole.
  pose proof (f_equal (fun d => d !! "content") Heq) as Hcontent.
  change (Some (PStr (role m1)) = Some (PStr (role m2))) in Hrole.
  change (Some (PStr (content m1)) = Some (PStr (content m2))) in Hcontent.
  destruct m1, m2. cbn in *. congruence.
Qed.

Lemma map_injective {A B} (f : A -> B) :
  (forall x y, f x = f y -> x = y) ->
  forall l1 l2, map f l1 = map f l2 -> l1 = l2.
Proof.
  intros Hf l1. induction l1 as [| x l1 IH]; intros [| y l2] Heq;
    try discriminate; [reflexivity |].
  cbn [map] in Heq. injection Heq as Hhead Htail.
  apply Hf in Hhead. apply IH in Htail. congruence.
Qed.

(** X9. Nothing of a request is lost on the way to the completion service:
    two requests that differ, be it in one role, one content, the order or
    number of the messages, the model, the token limit or the temperature,
    are sent with different arguments. *)
Theorem request_args_distinct (r1 r2 : ChatRequest) :
  r1 <> r2 -> request_args r1 <> request_args r2.
Proof.
  intros Hne Heq. apply Hne.
  destruct r1 as [msgs1 model1 max1 temp1], r2 as [msgs2 model2 max2 temp2].
  unfold request_args in Heq. cbn in Heq.
  injection Heq as Hmodel Hmsgs Hmax Htemp.
  apply (map_injective message_dict message_dict_inj) in Hmsgs. congruence.
Qed.

Lemma b64_char_alphabet (n : N) :
  (n < 64)%N -> In (b64_char n) b64_alphabet.
Proof.
  intros Hn. unfold b64_char.
  assert (Hk : (N.to_nat n < 64)%nat) by lia.
  apply nth_In. exact Hk.
Qed.

Lemma b64encode_length (bs : list byte) :
  length (b64encode bs) = (4 * ((length bs + 2) / 3))%nat.
Proof.
  induction bs as [| a | a b | a b c rest IH] using list_ind3;
    try reflexivity.
  cbn [b64encode length]. rewrite IH.
  replace (S (S (S (length rest))) + 2)%nat with (length rest + 2 + 1 * 3)%nat
    by lia.
  rewrite Nat.div_add by lia. lia.
Qed.

Lemma b64encode_alphabet (bs : list byte) :
  Forall (fun c => c = b64_pad \/ In c b64_alphabet) (b64encode bs).
Proof.
  assert (Hchar : forall n, (n < 64)%N ->
            b64_char n = b64_pad \/ In (b64_char n) b64_alphabet)
    by (intros n Hn; right; now apply b64_char_alphabet).
  assert (Hpad : b64_pad = b64_pad \/ In b64_pad b64_alphabet) by now left.
  induction bs as [| a | a b | a b c rest IH] using list_ind3.
  - apply Forall_nil_2.
  - pose proof (Byte.to_N_bounded a).
    cbn [b64encode].
    apply Forall_cons_2; [apply Hchar; lia |].
    apply Forall_cons_2; [apply Hchar; lia |].
    apply Forall_cons_2; [exact Hpad |].
    apply Forall_cons_2; [exact Hpad | apply Forall_nil_2].
  - pose proof (Byte.to_N_bounded a). pose proof (Byte.to_N_bounded b).
    cbn [b64encode].
    apply Forall_cons_2; [apply Hchar; lia |].
    apply Forall_cons_2; [apply Hchar; lia |].
    apply Forall_cons_2; [apply Hchar; lia |].
    apply Forall_cons_2; [exact Hpad | apply Forall_nil_2].
  - pose proof (Byte.to_N_bounded a). pose proof (Byte.to_N_bounded b).
    pose proof (Byte.to_N_bounded c).
    cbn [b64encode].
    apply Forall_cons_2; [apply Hchar; lia |].
    apply Forall_cons_2; [apply Hchar; lia |].
    apply Forall_cons_2; [apply Hchar; lia |].
    apply Forall_cons_2; [apply Hchar; lia | exact IH].
Qed.

(** X10. The [data] of a successful [/pdf] is four characters for every
    three bytes of the file, the last group filled up: a file of [n] bytes
    gives [4 * ceil(n / 3)] characters (none for an empty file), each of
    them a letter, a digit, [+], [/] or the padding [=]. *)
Theorem pdf_data_shape (w : World) (t : list event) (pdf_content : list byte) :
  path_exists w PDF_FILE_PATH = true ->
  read_file w PDF_FILE_PATH = Return pdf_content ->
  exists data : string,
    (get_pdf_base64 w t).1
      = Return {[ "success" := PBool true; "data" := PStr data ]}
    /\ length (encode_utf8 data) = (4 * ((length pdf_content + 2) / 3))%nat
    /\ Forall (fun c => c = b64_pad \/ In c b64_alphabet) (encode_utf8 data).
Proof.
  intros Hexists Hread.
  exists (decode_utf8 (b64encode pdf_content)).
  unfold encode_utf8, decode_utf8.
  rewrite list_byte_of_string_of_list_byte.
  split; [| split; [apply b64encode_length | apply b64encode_alphabet]].
  run_handler. rewrite Hexists. cbn.
  change "document.pdf" with PDF_FILE_PATH. now rewrite Hread.
Qed.

End Gateway.

(** ** The theorems at work *)

Example isoformat_sample : isoformat sample_now = "2024-02-29T09:05:07.000120".
Proof. reflexivity. Qed.

Example b64encode_sample :
  decode_utf8 (b64encode (list_byte_of_string "Hello!!")) = "SGVsbG8hIQ==".
Proof. reflexivity. Qed.

(** The request of the specification's example: one user message, the
    default model, token limit and temperature, and a service that answers
    "Hi there". *)
Lemma chat_success_witness :
  bool_of_str (openai_api_key (startup sample_world)) = true
  /\ chat_with_openai starlette_str (startup sample_world) sample_world
       sample_request []
     = (Return {[ "response" := PStr "Hi there" ]},
        [EvCreate {| api_key := "sk-test" |} (request_args sample_request)]).
Proof.
  split; [reflexivity |].
  exact (proj1 (chat_success starlette_str (startup sample_world) sample_world
                  sample_request [] {| api_key := "sk-test" |}
                  (sample_reply "Hi there") _ [] "Hi there"
                  eq_refl eq_refl eq_refl eq_refl eq_refl)).
Defined.

Lemma chat_remote_failure_witness :
  isinstance (Raised AuthenticationError "Incorrect API key provided") APIError = true
  /\ chat_with_openai starlette_str (startup rejecting_world) rejecting_world
       sample_request []
     = (Raise (HTTPException 401 "Invalid OpenAI API key"),
        [EvCreate {| api_key := "sk-test" |} (request_args sample_request)]).
Proof.
  split; [reflexivity |].
  destruct (chat_remote_failure starlette_str (startup rejecting_world)
              rejecting_world sample_request [] {| api_key := "sk-test" |}
              (Raised AuthenticationError "Incorrect API key provided")
              eq_refl eq_refl eq_refl)
    as (sc & msg & Hrun & _ & _ & Hauth & _).
  destruct (Hauth eq_refl) as [-> ->]. exact Hrun.
Defined.

Lemma chat_empty_choices_witness :
  chat_with_openai starlette_str (startup silent_world) silent_world
    sample_request []
  = (Raise (HTTPException 500
              "Error processing chat request: list index out of range"),
     [EvCreate {| api_key := "sk-test" |} (request_args sample_request)]).
Proof.
  exact (proj1 (proj2 (chat_empty_choices starlette_str (startup silent_world)
                         silent_world sample_request [])
                  {| api_key := "sk-test" |} {| completion.choices := [] |}
                  eq_refl eq_refl eq_refl eq_refl)).
Defined.

Lemma chat_key_missing_witness :
  openai_api_key (startup bare_world) = None
  /\ chat_with_openai starlette_str (startup bare_world) bare_world
       sample_request []
     = (Raise (HTTPException 500
          "Error processing chat request: 500: OpenAI API key not configured"),
        []).
Proof.
  split; [reflexivity |].
  exact (proj1 (chat_key_missing starlette_str (startup bare_world) bare_world
                  sample_request [] eq_refl)).
Defined.

Lemma pdf_missing_witness :
  path_exists bare_world PDF_FILE_PATH = false
  /\ get_pdf_base64 starlette_str bare_world []
     = (Raise (HTTPException 500
          "Error processing PDF file: 404: PDF file 'document.pdf' not found"),
        []).
Proof.
  split; [reflexivity |].
  exact (proj1 (pdf_missing_is_500 starlette_str bare_world [] eq_refl)).
Defined.

Lemma pdf_round_trip_witness :
  exists data : string,
    get_pdf_base64 starlette_str sample_world []
      = (Return {[ "success" := PBool true; "data" := PStr data ]},
         [EvRead PDF_FILE_PATH])
    /\ status (respond (get_pdf_base64 starlette_str sample_world []).1) = 200
    /\ b64decode (encode_utf8 data) = Some sample_pdf.
Proof.
  exact (pdf_round_trip starlette_str sample_world [] sample_pdf eq_refl eq_refl).
Defined.

Lemma chat_forwards_any_role_witness :
  create_calls
    (chat_with_openai starlette_str (startup sample_world) sample_world
       wizard_request []).2
  = [({| api_key := "sk-test" |}, request_args wizard_request)]
  /\ arg_messages (request_args wizard_request) !! 0%nat
     = Some {[ "role" := PStr "wizard"; "content" := PStr "Hello" ]}.
Proof.
  destruct (chat_forwards_any_role starlette_str (startup sample_world)
              sample_world wizard_request [] {| api_key := "sk-test" |}
              eq_refl eq_refl) as [Hcalls Hmsgs].
  split; [exact Hcalls |].
  exact (Hmsgs 0%nat {| role := "wizard"; content := "Hello" |} eq_refl).
Defined.

(** A message with a role other than [user], [assistant] or [system] does
    not keep the request from the completion service: the request with the
    role [wizard] is sent on. *)
Lemma chat_role_not_checked :
  ~ (forall (g : Globals) (w : World) (req : ChatRequest) (t : list event)
            (msg : ChatMessage),
       msg ∈ messages req ->
       role msg ∉ ["user"; "assistant"; "system"] ->
       create_calls (chat_with_openai starlette_str g w req t).2 = create_calls t).
Proof.
  intros Hclaim.
  specialize (Hclaim (startup sample_world) sample_world wizard_request []
                {| role := "wizard"; content := "Hello" |}).
  assert (Hin : {| role := "wizard"; content := "Hello" |} ∈ messages wizard_request)
    by (apply list_elem_of_singleton; reflexivity).
  assert (Hrole : "wizard" ∉ ["user"; "assistant"; "system"]).
  { rewrite !not_elem_of_cons. repeat split; try discriminate.
    apply not_elem_of_nil. }
  specialize (Hclaim Hin Hrole). discriminate Hclaim.
Qed.


(** A base profile with a [documents] field of its own, for comparison: the
    list takes the place of that field. *)
Example user_data_field_replaced :
  exists data : gmap string pyval,
    get_user_data starlette_str colliding_profile [] [] []
      = (Return {[ "success" := PBool true; "data" := PDict data ]}, [])
    /\ colliding_profile !! "documents" = Some (PStr "passport.pdf")
    /\ data !! "documents" = Some (PList []).
Proof.
  eexists. split; [reflexivity |]. split; reflexivity.
Qed.

(** With a key and a client and a service that returns no choice, the
    remote call succeeds and the reply is a 500. *)
Lemma chat_success_needs_choice :
  bool_of_str (openai_api_key (startup silent_world)) = true
  /\ openai_client (startup silent_world) = Some {| api_key := "sk-test" |}
  /\ remote_create silent_world {| api_key := "sk-test" |}
       (request_args sample_request)
     = Return {| completion.choices := [] |}
  /\ status (respond (chat_with_openai starlette_str (startup silent_world)
                        silent_world sample_request []).1) = 500
  /\ status (respond (chat_with_openai starlette_str (startup silent_world)
                        silent_world sample_request []).1) <> 200.
Proof. repeat split. discriminate. Qed.

(** With a first choice that carries no text the reply is a 200 whose
    [response] is [None]. *)
Example chat_null_content :
  chat_with_openai starlette_str (startup wordless_world) wordless_world
    sample_request []
  = (Return {[ "response" := PNone ]},
     [EvCreate {| api_key := "sk-test" |} (request_args sample_request)]).
Proof. reflexivity. Qed.

Lemma client_check_witness :
  openai_client (startup sample_world) = Some {| api_key := "sk-test" |}
  /\ (chat_with_openai starlette_str (startup sample_world) sample_world
        sample_request []).2
     = [EvCreate {| api_key := "sk-test" |} (request_args sample_request)].
Proof.
  destruct (proj2 (proj2 (proj2 (client_check_unreachable starlette_str
              sample_world))) eq_refl) as (k & Hk & Hcall).
  split; [reflexivity |].
  injection Hk as <-. exact (Hcall sample_world sample_request []).
Defined.

(** The health check of the sample process. *)
Example health_check_sample :
  (health_check (startup sample_world) sample_world []).1
  = Return {[ "success" := PBool true;
              "message" := PStr "MayaCode Backend API is running";
              "timestamp" := PStr "2024-02-29T09:05:07.000120";
              "version" := PStr "v1";
              "pdf_exists" := PBool true;
              "openai_configured" := PBool true ]}.
Proof. reflexivity. Qed.

(** *** Further properties at work *)

Lemma pdf_read_error_witness :
  get_pdf_base64 starlette_str locked_world []
  = (Raise (HTTPException 500
       "Error processing PDF file: [Errno 13] Permission denied: 'document.pdf'"),
     [EvRead PDF_FILE_PATH]).
Proof.
  exact (proj1 (pdf_read_error starlette_str locked_world []
                  (Raised PermissionError
                     "[Errno 13] Permission denied: 'document.pdf'")
                  eq_refl eq_refl)).
Defined.

Lemma request_args_distinct_witness :
  sample_request <> wizard_request
  /\ request_args sample_request <> request_args wizard_request.
Proof.
  assert (Hne : sample_request <> wizard_request) by discriminate.
  split; [exact Hne |].
  exact (request_args_distinct sample_request wizard_request Hne).
Defined.

Lemma pdf_data_shape_witness :
  length sample_pdf = 15%nat
  /\ exists data : string,
       (get_pdf_base64 starlette_str sample_world []).1
         = Return {[ "success" := PBool true; "data" := PStr data ]}
       /\ length (encode_utf8 data) = 20%nat
       /\ Forall (fun c => c = b64_pad \/ In c b64_alphabet) (encode_utf8 data).
Proof.
  split; [reflexivity |].
  exact (pdf_data_shape starlette_str sample_world [] sample_pdf
           eq_refl eq_refl).
Defined.
